(** * A generic repository over a document-store driver

    Shallow embedding of [mongo/mongoclient] and [mongo/mongobase]:
    the connection helper ([Connect], [Disconnect]) and the generic
    repository [MongoBaseRepository[T]] with its five operations, and of
    the mock of the repository ([MockMongoBaseRepository[T]]).

    The MongoDB driver is not part of the repository.  It is taken as an
    interface (the classes [DriverTypes] and [Driver] below); every
    function of the repository is written against that interface, the way
    the Go code is written against [*mongo.Client] and
    [*mongo.Collection].  An executable in-memory driver ([Mem]) is given
    after the repository; it is used to run the repository on concrete
    stores.  [Logged] turns any driver into one that records the calls it
    receives. *)

From Equations Require Import Equations.
From Stdlib Require Import Ascii.
From stdpp Require Import base option list strings gmap fin_maps.

Local Open Scope string_scope.

(** ** Go values *)

Module Go.

(** A slice is either [nil] or an allocated, possibly empty, sequence.
    [var s []T] is [nil]; [[]T{}] is [Slice []]; both have length 0. *)
Inductive slice (T : Type) : Type :=
  | NilSlice
  | Slice (elems : list T).
Arguments NilSlice {T}.
Arguments Slice {T} elems.

Definition elements {T} (s : slice T) : list T :=
  match s with
  | NilSlice => []
  | Slice l => l
  end.

Definition len {T} (s : slice T) : nat := length (elements s).

Definition is_nil {T} (s : slice T) : bool :=
  match s with
  | NilSlice => true
  | Slice _ => false
  end.

(** [append(s, x)]: the result is always allocated. *)
Definition append {T} (s : slice T) (x : T) : slice T :=
  Slice (elements s ++ [x]).

End Go.

Import Go.

(** ** bson.M

    [bson.M] is [map[string]any].  Of [any] we keep the values this code
    and its tests put into a map: strings, integers and nested maps. *)

#[warnings="-register-all"]
Inductive any : Type :=
  | AString (s : string)
  | AInt (z : Z)
  | AM (m : gmap string any).

Abbreviation bson_M := (gmap string any).

Fixpoint any_eq_dec (x y : any) : Decision (x = y).
Proof.
  refine (match x, y with
          | AString s1, AString s2 => cast_if (decide (s1 = s2))
          | AInt z1, AInt z2 => cast_if (decide (z1 = z2))
          | AM m1, AM m2 =>
              cast_if (@decide (m1 = m2)
                         (@gmap_eq_dec _ _ _ _ any_eq_dec m1 m2))
          | _, _ => right _
          end); congruence.
Defined.

#[global] Instance any_eqdec : EqDecision any := any_eq_dec.

(** ** State passing *)

Definition State (S A : Type) : Type := S → A * S.

#[global] Instance State_ret {S} : MRet (State S) :=
  λ A (a : A) (s : S), (a, s).

#[global] Instance State_bind {S} : MBind (State S) :=
  λ A B (f : A → State S B) (m : State S A) (s : S),
    let (a, s') := m s in f a s'.

(** Keep the equation of a scrutinee, for recursion that depends on it. *)
Definition inspect {A} (a : A) : {b | a = b} := exist _ a eq_refl.

(** ** The driver boundary *)

(** Result records of the driver ([mongo.InsertOneResult],
    [mongo.UpdateResult], [mongo.DeleteResult]). *)
Record InsertOneResult := { InsertedID : any }.
Record UpdateResult :=
  { MatchedCount : Z; ModifiedCount : Z; UpsertedCount : Z }.
Record DeleteResult := { DeletedCount : Z }.

Class DriverTypes : Type := {
  error : Type;          (* the non-nil values of Go's [error] *)
  Context : Type;        (* context.Context *)
  World : Type;          (* the deployment and the driver's sessions *)
  ClientOptions : Type;  (* *options.ClientOptions *)
  Client : Type;         (* *mongo.Client *)
  Database : Type;       (* *mongo.Database *)
  Collection : Type;     (* *mongo.Collection *)
  Raw : Type;            (* bson.Raw, one document on the wire *)
}.

(** A call into the driver acts on the world. *)
Definition IO `{DriverTypes} (A : Type) : Type := State World A.

(** How the driver's registry encodes and decodes an entity type:
    [zero] is the value of [var x T]; [unmarshal raw x] is
    [bson.Unmarshal(raw, &x)], which returns the target as it left it. *)
Class Codec `{DriverTypes} (T : Type) : Type := {
  zero : T;
  marshal : T → Raw + error;
  unmarshal : Raw → T → T * option error;
}.

(** [*mongo.SingleResult]: the error of the find, or the document read. *)
Record SingleResult `{DriverTypes} : Type := {
  sr_err : option error;
  sr_rdr : Raw;
}.

(** [*mongo.Cursor]: the current document, the documents still to come
    and the error the iteration ends with. *)
Record Cursor `{DriverTypes} : Type := {
  Current : Raw;
  cur_batch : list Raw;
  cur_err : option error;
}.

Section DriverResults.
Context {DT : DriverTypes} {T : Type} {C : Codec T}.

(** [sr.Decode(&v)]: an error of the find is returned before anything
    is decoded. *)
Definition SingleResult_Decode (sr : SingleResult) (v : T)
  : T * option error :=
  match sr_err sr with
  | Some err => (v, Some err)
  | None => unmarshal (sr_rdr sr) v
  end.

(** [cursor.Next(ctx)] *)
Definition Cursor_Next (cursor : Cursor) (ctx : Context) : bool * Cursor :=
  match cur_batch cursor with
  | [] => (false, cursor)
  | d :: ds =>
      (true, {| Current := d; cur_batch := ds; cur_err := cur_err cursor |})
  end.

(** [cursor.Decode(&v)] *)
Definition Cursor_Decode (cursor : Cursor) (v : T) : T * option error :=
  unmarshal (Current cursor) v.

(** [cursor.Err()] *)
Definition Cursor_Err (cursor : Cursor) : option error := cur_err cursor.

End DriverResults.

Class Driver `{DriverTypes} : Type := {
  context_Background : Context;
  options_Client : ClientOptions;
  ClientOptions_ApplyURI : ClientOptions → string → ClientOptions;
  mongo_Connect : ClientOptions → IO (Client + error);
  Client_Ping : Client → Context → IO (option error);
  Client_Disconnect : Client → Context → IO (option error);
  Client_Database : Client → string → Database;
  Database_Collection : Database → string → Collection;
  Collection_InsertOne :
    ∀ {T} `{!Codec T}, Collection → Context → T → IO (InsertOneResult + error);
  Collection_FindOne : Collection → Context → bson_M → IO SingleResult;
  Collection_Find : Collection → Context → bson_M → IO (Cursor + error);
  Collection_UpdateOne :
    Collection → Context → bson_M → bson_M → IO (UpdateResult + error);
  Collection_DeleteOne :
    Collection → Context → bson_M → IO (DeleteResult + error);
  Cursor_Close : Cursor → Context → IO (option error);
}.

(** ** mongoclient *)

(** [mongo_client.go] *)
Module mongo_client.
Section mongo_client.
Context {DT : DriverTypes} {D : Driver}.

(** The field is [Client] in the source; [Client_] here, next to the
    driver's type of that name. *)
Record MongoClient : Type := { Client_ : Client }.

Definition Connect (ctx : Context) (connectionStr : string)
  : IO (option MongoClient * option error) :=
  r ← mongo_Connect (ClientOptions_ApplyURI options_Client connectionStr);
  match r with
  | inr err => mret (None, Some err)
  | inl client =>
      err ← Client_Ping client ctx;
      match err with
      | Some err => mret (None, Some err)
      | None => mret (Some {| Client_ := client |}, None)
      end
  end.

Definition Disconnect (mc : MongoClient) (ctx : Context)
  : IO (option error) :=
  err ← Client_Disconnect (Client_ mc) ctx;
  match err with
  | Some err => mret (Some err)
  | None => mret None
  end.

End mongo_client.
End mongo_client.

(** [mongo.go]: the variant without a caller context. *)
Module mongo_go.
Section mongo_go.
Context {DT : DriverTypes} {D : Driver}.

Record MongoClient : Type := { client : Client }.

Definition Connect (connectionStr : string)
  : IO (option MongoClient * option error) :=
  r ← mongo_Connect (ClientOptions_ApplyURI options_Client connectionStr);
  match r with
  | inr err => mret (None, Some err)
  | inl client_ =>
      err ← Client_Ping client_ context_Background;
      match err with
      | Some err => mret (None, Some err)
      | None => mret (Some {| client := client_ |}, None)
      end
  end.

Definition Disconnect (mc : MongoClient) : IO (option error) :=
  err ← Client_Disconnect (client mc) context_Background;
  match err with
  | Some err => mret (Some err)
  | None => mret None
  end.

End mongo_go.
End mongo_go.

(** ** mongobase *)

Module mongobase.
Section mongobase.
Context {DT : DriverTypes} {D : Driver} {T : Type} {C : Codec T}.

Record MongoBaseRepository : Type := { collection : Collection }.

(** A method has a pointer receiver: the repository object is part of
    the state the method runs in, next to the world. *)
Record Env : Type := { this : MongoBaseRepository; world : World }.

Definition Method (A : Type) : Type := State Env A.

(** Read a field of the receiver. *)
Definition repo {A} (field : MongoBaseRepository → A) : Method A :=
  λ s, (field (this s), s).

(** Call the driver. *)
Definition call {A} (io : IO A) : Method A :=
  λ s, let (a, w) := io (world s) in (a, {| this := this s; world := w |}).

Definition New (client : Client) (databaseName collectionName : string)
  : MongoBaseRepository :=
  let collection :=
    Database_Collection (Client_Database client databaseName) collectionName in
  {| collection := collection |}.

Definition InsertOne (ctx : Context) (document : T)
  : Method (option error) :=
  coll ← repo collection;
  r ← call (Collection_InsertOne coll ctx document);
  match r with
  | inr err => mret (Some err)
  | inl _ => mret None
  end.

Definition FindOneById (ctx : Context) (id : string)
  : Method (T * option error) :=
  let filter : bson_M := {[ "_id" := AString id ]} in
  let result := zero in
  coll ← repo collection;
  sr ← call (Collection_FindOne coll ctx filter);
  let '(result, err) := SingleResult_Decode sr result in
  match err with
  | Some err => mret (result, Some err)
  | None => mret (result, None)
  end.

(** The loop of [FindAll]: [for cursor.Next(ctx) { ... }].  It yields
    the cursor as the loop left it and either the slice built or the
    error of the first document that does not decode. *)
Equations? FindAll_loop (cursor : Cursor) (ctx : Context) (results : slice T)
  : Cursor * (slice T + error)
  by wf (length (cur_batch cursor)) lt :=
FindAll_loop cursor ctx results with inspect (Cursor_Next cursor ctx) := {
  | exist _ (false, cursor') _ => (cursor', inl results)
  | exist _ (true, cursor') Hnext with Cursor_Decode cursor' zero := {
      | (item, Some err) => (cursor', inr err)
      | (item, None) => FindAll_loop cursor' ctx (append results item) } }.
Proof.
  unfold Cursor_Next in Hnext.
  destruct (cur_batch cursor); simplify_eq; simpl; lia.
Qed.

Definition FindAll (ctx : Context) (filter : bson_M)
  : Method (slice T * option error) :=
  coll ← repo collection;
  r ← call (Collection_Find coll ctx filter);
  match r with
  | inr err => mret (NilSlice, Some err)
  | inl cursor =>
      let '(cursor, out) := FindAll_loop cursor ctx NilSlice in
      let ret :=
        match out with
        | inr err => (NilSlice, Some err)
        | inl results =>
            match Cursor_Err cursor with
            | Some err => (NilSlice, Some err)
            | None => (results, None)
            end
        end in
      (* defer cursor.Close(ctx) *)
      _ ← call (Cursor_Close cursor ctx);
      mret ret
  end.

Definition UpdateOneById (ctx : Context) (id : string) (update : bson_M)
  : Method (option error) :=
  let filter : bson_M := {[ "_id" := AString id ]} in
  coll ← repo collection;
  r ← call (Collection_UpdateOne coll ctx filter {[ "$set" := AM update ]});
  match r with
  | inr err => mret (Some err)
  | inl _ => mret None
  end.

Definition DeleteOneById (ctx : Context) (id : string)
  : Method (option error) :=
  let filter : bson_M := {[ "_id" := AString id ]} in
  coll ← repo collection;
  r ← call (Collection_DeleteOne coll ctx filter);
  match r with
  | inr err => mret (Some err)
  | inl _ => mret None
  end.

End mongobase.
End mongobase.

(** ** An in-memory driver

    A small document store behind the driver interface: collections are
    lists of documents in insertion order, a filter is a conjunction of
    field equalities, and [$set] is the only update operator; its keys
    are paths into nested documents (there are no arrays).  It serves to
    run the repository on concrete stores and to state what an update by
    identifier does to a stored document. *)

Module Mem.

Inductive MemError : Type :=
  | ErrNoDocuments
  | ErrDuplicateKey
  | ErrImmutableField
  | ErrBadUpdate
  | ErrPathNotViable
  | ErrInvalidURI
  | ErrServerSelection
  | ErrContextCanceled
  | ErrConnectionReset
  | ErrDecode (field : string).

Inductive MemContext : Type := Live | Canceled.

Abbreviation Doc := (gmap string any).

(** [drops_after = Some k]: the connection is reset once a cursor has
    delivered [k] documents and asks for more. *)
Record MemWorld : Type := {
  colls : gmap (string * string) (list Doc);
  next_oid : Z;
  reachable : bool;
  drops_after : option nat;
}.

#[global] Instance types : DriverTypes := {|
  error := MemError;
  Context := MemContext;
  World := MemWorld;
  ClientOptions := option string;
  Client := unit;
  Database := string;
  Collection := string * string;
  Raw := Doc;
|}.

Definition docs_of (w : MemWorld) (c : string * string) : list Doc :=
  default [] (colls w !! c).

Definition set_docs (w : MemWorld) (c : string * string) (ds : list Doc)
  : MemWorld :=
  {| colls := <[c := ds]> (colls w);
     next_oid := next_oid w;
     reachable := reachable w;
     drops_after := drops_after w |}.

(** A document matches a filter when it has every field of the filter
    with the same value. *)
Definition matches (filter : bson_M) (d : Doc) : bool :=
  bool_decide (map_Forall (λ k v, d !! k = Some v) filter).

Fixpoint find_first (p : Doc → bool) (ds : list Doc) : option Doc :=
  match ds with
  | [] => None
  | d :: ds => if p d then Some d else find_first p ds
  end.

(** Replace, or with [f d = None] drop, the first document [p] holds of. *)
Fixpoint change_first (p : Doc → bool) (f : Doc → option Doc)
  (ds : list Doc) : list Doc :=
  match ds with
  | [] => []
  | d :: ds =>
      if p d then
        match f d with
        | Some d' => d' :: ds
        | None => ds
        end
      else d :: change_first p f ds
  end.

(** A key of a [$set] mapping is a path, field names separated by dots:
    ["addr.city"] is the field [city] of the document in the field
    [addr]. *)
Fixpoint split_dots (key : string) : list string :=
  match key with
  | EmptyString => [EmptyString]
  | String c rest =>
      if Ascii.eqb c "."%char then EmptyString :: split_dots rest
      else
        match split_dots rest with
        | p :: ps => String c p :: ps
        | [] => [String c EmptyString]
        end
  end.


(** A field name in a path is not empty and does not start with [$]. *)
Definition field_name (p : string) : bool :=
  match p with
  | EmptyString => false
  | String c _ => negb (Ascii.eqb c "$"%char)
  end.


(** Two keys conflict when the path of one starts the path of the other,
    as ["addr"] and ["addr.city"] do. *)
Definition conflicts (u : bson_M) : bool :=
  let keys := (map_to_list u).*1 in
  bool_decide
    (Exists (λ k1, Exists (λ k2, k1 ≠ k2
                                 ∧ split_dots k1 `prefix_of` split_dots k2)
                     keys) keys).

(** The mappings [$set] accepts: every key a path of field names, no two
    keys in conflict. *)
Definition well_formed (u : bson_M) : bool :=
  bool_decide
    (map_Forall (λ k _, Forall (λ p, field_name p = true) (split_dots k)) u)
  && negb (conflicts u).

(** The update documents understood: exactly [{"$set": {...}}] with a
    mapping [$set] accepts. *)
Definition set_spec (update : bson_M) : option bson_M :=
  match update !! "$set" with
  | Some (AM u) =>
      if bool_decide (size update = 1) && well_formed u then Some u else None
  | _ => None
  end.

(** Set the field at a path: documents on the way are entered, missing
    ones are created, and a value that is not a document cannot be
    entered. *)
Fixpoint set_path (path : list string) (v : any) (d : Doc) : option Doc :=
  match path with
  | [] => None
  | p :: ps =>
      match ps with
      | [] => Some (<[p := v]> d)
      | _ :: _ =>
          match d !! p with
          | None =>
              sub ← set_path ps v ∅; Some (<[p := AM sub]> d)
          | Some (AM sub) =>
              sub' ← set_path ps v sub; Some (<[p := AM sub']> d)
          | Some _ => None
          end
      end
  end.

(** [$set] with the mapping [u] on the document [d]. *)
Definition apply_set (u : bson_M) (d : Doc) : option Doc :=
  map_fold (λ k v acc, acc ≫= set_path (split_dots k) v) (Some d) u.


Definition connect (opts : option string) : IO (unit + MemError) :=
  λ w,
    match opts with
    | Some uri =>
        if String.prefix "mongodb://" uri then (inl (), w)
        else (inr ErrInvalidURI, w)
    | None => (inr ErrInvalidURI, w)
    end.

Definition ping (c : unit) (ctx : MemContext) : IO (option MemError) :=
  λ w,
    match ctx with
    | Canceled => (Some ErrContextCanceled, w)
    | Live => if reachable w then (None, w) else (Some ErrServerSelection, w)
    end.

Definition insert_one {T} `{!Codec T} (c : string * string)
  (ctx : MemContext) (document : T) : IO (InsertOneResult + MemError) :=
  λ w,
    match ctx, marshal document with
    | Canceled, _ => (inr ErrContextCanceled, w)
    | Live, inr err => (inr err, w)
    | Live, inl raw =>
        match raw !! "_id" with
        | Some v =>
            match find_first (matches {[ "_id" := v ]}) (docs_of w c) with
            | Some _ => (inr ErrDuplicateKey, w)
            | None =>
                (inl {| InsertedID := v |},
                 set_docs w c (docs_of w c ++ [raw]))
            end
        | None =>
            let v := AInt (next_oid w) in
            let w' := {| colls := colls w;
                         next_oid := next_oid w + 1;
                         reachable := reachable w;
                         drops_after := drops_after w |} in
            (inl {| InsertedID := v |},
             set_docs w' c (docs_of w c ++ [<["_id" := v]> raw]))
        end
    end.

Definition find_one (c : string * string) (ctx : MemContext)
  (filter : bson_M) : IO SingleResult :=
  λ w,
    match ctx with
    | Canceled => ({| sr_err := Some ErrContextCanceled; sr_rdr := ∅ |}, w)
    | Live =>
        match find_first (matches filter) (docs_of w c) with
        | Some d => ({| sr_err := None; sr_rdr := d |}, w)
        | None => ({| sr_err := Some ErrNoDocuments; sr_rdr := ∅ |}, w)
        end
    end.

Definition find (c : string * string) (ctx : MemContext) (filter : bson_M)
  : IO (Cursor + MemError) :=
  λ w,
    match ctx with
    | Canceled => (inr ErrContextCanceled, w)
    | Live =>
        let found := List.filter (matches filter) (docs_of w c) in
        match drops_after w with
        | Some k =>
            if decide (k < length found)
            then (inl {| Current := ∅;
                         cur_batch := take k found;
                         cur_err := Some ErrConnectionReset |}, w)
            else (inl {| Current := ∅; cur_batch := found;
                         cur_err := None |}, w)
        | None =>
            (inl {| Current := ∅; cur_batch := found; cur_err := None |}, w)
        end
    end.

Definition update_one (c : string * string) (ctx : MemContext)
  (filter update : bson_M) : IO (UpdateResult + MemError) :=
  λ w,
    match ctx, set_spec update with
    | Canceled, _ => (inr ErrContextCanceled, w)
    | Live, None => (inr ErrBadUpdate, w)
    | Live, Some u =>
        match find_first (matches filter) (docs_of w c) with
        | None =>
            (inl {| MatchedCount := 0; ModifiedCount := 0;
                    UpsertedCount := 0 |}, w)
        | Some d =>
            match apply_set u d with
            | None => (inr ErrPathNotViable, w)
            | Some d' =>
                (* [_id] is immutable *)
                if bool_decide (d' !! "_id" = d !! "_id") then
                  (inl {| MatchedCount := 1;
                          ModifiedCount := if decide (d' = d) then 0 else 1;
                          UpsertedCount := 0 |},
                   set_docs w c
                     (change_first (matches filter) (λ _, Some d')
                        (docs_of w c)))
                else (inr ErrImmutableField, w)
            end
        end
    end.

Definition delete_one (c : string * string) (ctx : MemContext)
  (filter : bson_M) : IO (DeleteResult + MemError) :=
  λ w,
    match ctx with
    | Canceled => (inr ErrContextCanceled, w)
    | Live =>
        match find_first (matches filter) (docs_of w c) with
        | None => (inl {| DeletedCount := 0 |}, w)
        | Some _ =>
            (inl {| DeletedCount := 1 |},
             set_docs w c
               (change_first (matches filter) (λ _, None) (docs_of w c)))
        end
    end.

#[global] Instance driver : Driver := {|
  context_Background := Live;
  options_Client := None;
  ClientOptions_ApplyURI := λ _ uri, Some uri;
  mongo_Connect := connect;
  Client_Ping := ping;
  Client_Disconnect := λ _ _ w, (None, w);
  Client_Database := λ _ name, name;
  Database_Collection := λ db name, (db, name);
  Collection_InsertOne := @insert_one;
  Collection_FindOne := find_one;
  Collection_Find := find;
  Collection_UpdateOne := update_one;
  Collection_DeleteOne := delete_one;
  Cursor_Close := λ _ _ w, (None, w);
|}.

(** The entity of the repository's tests:
    [ID string `bson:"_id,omitempty"`], [Name string `bson:"name"`],
    [Age int `bson:"age"`]. *)
Record TestEntity : Type := { ID : string; Name : string; Age : Z }.

Definition TestEntity_marshal (e : TestEntity) : Doc :=
  let d : Doc := {[ "name" := AString (Name e); "age" := AInt (Age e) ]} in
  if decide (ID e = EmptyString) then d else <["_id" := AString (ID e)]> d.

(** Fields absent from the document keep the target's value; a field of
    the wrong type stops the decoding there. *)
Definition TestEntity_unmarshal (raw : Doc) (v : TestEntity)
  : TestEntity * option MemError :=
  match raw !! "_id" with
  | Some (AInt _) | Some (AM _) => (v, Some (ErrDecode "_id"))
  | oid =>
      let v := {| ID := match oid with Some (AString s) => s | _ => ID v end;
                  Name := Name v; Age := Age v |} in
      match raw !! "name" with
      | Some (AInt _) | Some (AM _) => (v, Some (ErrDecode "name"))
      | oname =>
          let v := {| ID := ID v;
                      Name := match oname with
                              | Some (AString s) => s
                              | _ => Name v
                              end;
                      Age := Age v |} in
          match raw !! "age" with
          | Some (AString _) | Some (AM _) => (v, Some (ErrDecode "age"))
          | Some (AInt z) => ({| ID := ID v; Name := Name v; Age := z |}, None)
          | None => (v, None)
          end
      end
  end.

#[global] Instance TestEntity_codec : Codec TestEntity := {|
  zero := {| ID := EmptyString; Name := EmptyString; Age := 0 |};
  marshal := λ e, inl (TestEntity_marshal e);
  unmarshal := TestEntity_unmarshal;
|}.

End Mem.

(** ** Auxiliary definitions for the statements *)

Section StatementAux.
Context {DT : DriverTypes} {D : Driver} {T : Type} {C : Codec T}.
Import mongobase.

(** What the loop of [FindAll] computes from the documents a cursor
    still holds: decode one after the other into a fresh [var item T],
    stop at the first that fails. *)
Fixpoint decode_batch (ds : list Raw) (results : slice T)
  : slice T + error :=
  match ds with
  | [] => inl results
  | d :: ds =>
      match unmarshal d zero with
      | (item, None) => decode_batch ds (append results item)
      | (_, Some err) => inr err
      end
  end.

(** A document decodes into a fresh entity. *)
Definition decodes (d : Raw) : Prop := (unmarshal d (zero : T)).2 = None.

(** The entity a document decodes to. *)
Definition decoded (d : Raw) : T := (unmarshal d zero).1.

(** A method leaves its receiver as it found it. *)
Definition keeps_receiver {A} (m : Method A) : Prop :=
  ∀ s, this (m s).2 = this s.

(** What a [Connect] owes its caller, for the context [ctx] it pings
    with and the way [wrap] it packs the client: the failure of the
    construction or of the ping as the driver gave it, after one call of
    each at most; a connection exactly when both succeed. *)
Definition connect_contract {MC : Type}
  (connect : string → IO (option MC * option error))
  (ctx : Context) (wrap : Client → MC) : Prop :=
  ∀ (connectionStr : string) (w : World),
    let opts := ClientOptions_ApplyURI options_Client connectionStr in
    (∀ err w1,
       mongo_Connect opts w = (inr err, w1) →
       connect connectionStr w = ((None, Some err), w1))
    ∧ (∀ client w1 err w2,
         mongo_Connect opts w = (inl client, w1) →
         Client_Ping client ctx w1 = (Some err, w2) →
         connect connectionStr w = ((None, Some err), w2))
    ∧ (∀ client w1 w2,
         mongo_Connect opts w = (inl client, w1) →
         Client_Ping client ctx w1 = (None, w2) →
         connect connectionStr w = ((Some (wrap client), None), w2))
    ∧ (∀ mc,
         (connect connectionStr w).1.1 = Some mc →
         ∃ client w1,
           mongo_Connect opts w = (inl client, w1)
           ∧ (Client_Ping client ctx w1).1 = None
           ∧ mc = wrap client).

End StatementAux.

(** Sample stores and entities for the in-memory driver. *)
Module Sample.
Import Mem mongobase.

Definition users : MongoBaseRepository := New () "app" "users".

Definition ann : TestEntity := {| ID := "u1"; Name := "Ann"; Age := 30 |}.
Definition bob : TestEntity := {| ID := "u2"; Name := "Bob"; Age := 41 |}.

Definition empty_world : MemWorld :=
  {| colls := ∅; next_oid := 0; reachable := true; drops_after := None |}.

Definition down_world : MemWorld :=
  {| colls := ∅; next_oid := 0; reachable := false; drops_after := None |}.

(** Ann and Bob stored in [app.users]. *)
Definition two_users : MemWorld :=
  {| colls := {[ ("app", "users") :=
                   [TestEntity_marshal ann; TestEntity_marshal bob] ]};
     next_oid := 0;
     reachable := true;
     drops_after := None |}.


(** A store whose second document has a string where [age] is an
    integer in [TestEntity]. *)
Definition bad_age : MemWorld :=
  {| colls := {[ ("app", "users") :=
                   [TestEntity_marshal ann;
                    {[ "_id" := AString "u3"; "name" := AString "Cy";
                       "age" := AString "old" ]}] ]};
     next_oid := 0;
     reachable := true;
     drops_after := None |}.

Definition env (w : MemWorld) : Env := {| this := users; world := w |}.

(** Insert Ann, find her, make her 31, find her, delete her, look for
    her. *)
Definition scenario : Method _ :=
  e1 ← InsertOne Live ann;
  f1 ← FindOneById (T:=TestEntity) Live "u1";
  e2 ← UpdateOneById Live "u1" {[ "age" := AInt 31 ]};
  f2 ← FindOneById (T:=TestEntity) Live "u1";
  e3 ← DeleteOneById Live "u1";
  f3 ← FindOneById (T:=TestEntity) Live "u1";
  mret (e1, f1, e2, f2, e3, f3).

End Sample.

(** ** Recording the calls of a driver *)

Module Logged.
Section Logged.
Context {DT : DriverTypes} {D : Driver}.

(** The requests a driver can be asked for, with their arguments; a
    document to insert is recorded as the registry encodes it. *)
Inductive Call : Type :=
  | CallConnect (opts : ClientOptions)
  | CallPing (client : Client) (ctx : Context)
  | CallDisconnect (client : Client) (ctx : Context)
  | CallInsertOne (coll : Collection) (ctx : Context) (document : Raw + error)
  | CallFindOne (coll : Collection) (ctx : Context) (filter : bson_M)
  | CallFind (coll : Collection) (ctx : Context) (filter : bson_M)
  | CallUpdateOne (coll : Collection) (ctx : Context) (filter update : bson_M)
  | CallDeleteOne (coll : Collection) (ctx : Context) (filter : bson_M)
  | CallClose (cursor : Cursor) (ctx : Context).

(** The same driver types, with the list of the calls made so far next
    to the world. *)
Definition types : DriverTypes := {|
  error := @error DT;
  Context := @Context DT;
  World := @World DT * list Call;
  ClientOptions := @ClientOptions DT;
  Client := @Client DT;
  Database := @Database DT;
  Collection := @Collection DT;
  Raw := @Raw DT;
|}.

Definition lower_codec {T} (C : @Codec types T) : @Codec DT T :=
  @Build_Codec DT T (@zero types T C) (@marshal types T C)
    (@unmarshal types T C).

Definition lift_codec {T} (C : @Codec DT T) : @Codec types T :=
  @Build_Codec types T (@zero DT T C) (@marshal DT T C) (@unmarshal DT T C).

Definition lift_result (sr : @SingleResult DT) : @SingleResult types :=
  @Build_SingleResult types (sr_err sr) (sr_rdr sr).

Definition lift_cursor (c : @Cursor DT) : @Cursor types :=
  @Build_Cursor types (Current c) (cur_batch c) (cur_err c).

Definition lower_cursor (c : @Cursor types) : @Cursor DT :=
  @Build_Cursor DT (Current c) (cur_batch c) (cur_err c).

(** Run a request of the driver underneath and record it. *)
Definition record {A} (call : Call) (io : @IO DT A) : @IO types A :=
  λ '(w, log), let (a, w') := io w in (a, (w', (log ++ [call])%list)).

Definition driver : @Driver types :=
  @Build_Driver types
    (@context_Background DT D)
    (@options_Client DT D)
    (@ClientOptions_ApplyURI DT D)
    (λ opts, record (CallConnect opts) (@mongo_Connect DT D opts))
    (λ c ctx, record (CallPing c ctx) (@Client_Ping DT D c ctx))
    (λ c ctx, record (CallDisconnect c ctx) (@Client_Disconnect DT D c ctx))
    (@Client_Database DT D)
    (@Database_Collection DT D)
    (λ T C coll ctx document,
       record (CallInsertOne coll ctx (@marshal types T C document))
         (@Collection_InsertOne DT D T (lower_codec C) coll ctx document))
    (λ coll ctx filter,
       record (CallFindOne coll ctx filter)
         (λ w, let (sr, w') := @Collection_FindOne DT D coll ctx filter w in
               (lift_result sr, w')))
    (λ coll ctx filter,
       record (CallFind coll ctx filter)
         (λ w, let (r, w') := @Collection_Find DT D coll ctx filter w in
               (match r with
                | inl c => inl (lift_cursor c)
                | inr err => inr err
                end, w')))
    (λ coll ctx filter update,
       record (CallUpdateOne coll ctx filter update)
         (@Collection_UpdateOne DT D coll ctx filter update))
    (λ coll ctx filter,
       record (CallDeleteOne coll ctx filter)
         (@Collection_DeleteOne DT D coll ctx filter))
    (λ cursor ctx,
       record (CallClose (lower_cursor cursor) ctx)
         (@Cursor_Close DT D (lower_cursor cursor) ctx)).

(** The calls recorded in a world. *)
Definition calls (w : @World types) : list Call := w.2.

End Logged.
End Logged.

(** ** A driver that cannot close a cursor *)

(** A driver whose cursors fail to close with [err]; everything else is
    the driver underneath. *)
Definition failing_close {DT : DriverTypes} (D : Driver) (err : error)
  : Driver :=
  {| context_Background := context_Background;
     options_Client := options_Client;
     ClientOptions_ApplyURI := ClientOptions_ApplyURI;
     mongo_Connect := mongo_Connect;
     Client_Ping := Client_Ping;
     Client_Disconnect := Client_Disconnect;
     Client_Database := Client_Database;
     Database_Collection := Database_Collection;
     Collection_InsertOne := @Collection_InsertOne DT D;
     Collection_FindOne := Collection_FindOne;
     Collection_Find := Collection_Find;
     Collection_UpdateOne := Collection_UpdateOne;
     Collection_DeleteOne := Collection_DeleteOne;
     Cursor_Close := λ _ _ w, (Some err, w) |}.

(** ** The mock repository *)

(** A call that returns or panics. *)
Inductive outcome (A : Type) : Type :=
  | Returns (a : A)
  | Panics.
Arguments Returns {A} a.
Arguments Panics {A}.

#[global] Instance outcome_ret : MRet outcome := λ A, Returns.

#[global] Instance outcome_bind : MBind outcome :=
  λ A B (f : A → outcome B) (o : outcome A),
    match o with
    | Returns a => f a
    | Panics => Panics
    end.

(** [mock_mongo_base_repo.go] *)
Module mock_repo.
Section mock_repo.
Context {DT : DriverTypes} {T : Type} {C : Codec T}.

(** The values that travel as [any] through [mock.Mock]: the arguments of
    the five methods and what a test configures as their results. *)
Inductive value : Type :=
  | VNil
  | VContext (ctx : Context)
  | VString (s : string)
  | VM (m : bson_M)
  | VEntity (v : T)
  | VSlice (s : slice T)
  | VError (err : error).

(** [mock.Arguments] *)
Definition Arguments : Type := list value.

(** [args.Get(index)] panics when there is no such argument. *)
Definition Arguments_Get (args : Arguments) (index : nat) : outcome value :=
  match args !! index with
  | Some v => Returns v
  | None => Panics
  end.

(** [args.Error(index)]: nil for nil, the error for an error, a panic for
    anything else. *)
Definition Arguments_Error (args : Arguments) (index : nat)
  : outcome (option error) :=
  obj ← Arguments_Get args index;
  match obj with
  | VNil => Returns None
  | VError err => Returns (Some err)
  | _ => Panics
  end.

(** The type assertions [x.(T)] and [x.([]T)]. *)
Definition assert_T (x : value) : outcome T :=
  match x with
  | VEntity v => Returns v
  | _ => Panics
  end.

Definition assert_slice (x : value) : outcome (slice T) :=
  match x with
  | VSlice s => Returns s
  | _ => Panics
  end.

Definition is_nil_value (x : value) : bool :=
  match x with
  | VNil => true
  | _ => false
  end.

(** [mock.Mock]: its state, and [Called] for a method name and the
    arguments of the call; [Called] panics when the test configured no
    matching call. *)
Class Mock : Type := {
  MockState : Type;
  Mock_Called : string → list value → MockState → outcome Arguments * MockState;
}.

Context {M : Mock}.

(** A method of the mock runs [Called] and then reads the arguments it
    got back. *)
Definition after_Called {A} (method : string) (arguments : list value)
  (read : Arguments → outcome A) : MockState → outcome A * MockState :=
  λ m, let (args, m') := Mock_Called method arguments m in
       (args ≫= read, m').

Definition InsertOne (ctx : Context) (document : T)
  : MockState → outcome (option error) * MockState :=
  after_Called "InsertOne" [VContext ctx; VEntity document]
    (λ args, Arguments_Error args 0).

Definition FindOneById (ctx : Context) (id : string)
  : MockState → outcome (T * option error) * MockState :=
  after_Called "FindOneById" [VContext ctx; VString id]
    (λ args,
       first ← Arguments_Get args 0;
       if is_nil_value first then
         err ← Arguments_Error args 1;
         mret (zero, err)
       else
         v ← Arguments_Get args 0 ≫= assert_T;
         err ← Arguments_Error args 1;
         mret (v, err)).

Definition FindAll (ctx : Context) (filter : bson_M)
  : MockState → outcome (slice T * option error) * MockState :=
  after_Called "FindAll" [VContext ctx; VM filter]
    (λ args,
       first ← Arguments_Get args 0;
       if is_nil_value first then
         err ← Arguments_Error args 1;
         mret (NilSlice, err)
       else
         s ← Arguments_Get args 0 ≫= assert_slice;
         err ← Arguments_Error args 1;
         mret (s, err)).

Definition UpdateOneById (ctx : Context) (id : string) (update : bson_M)
  : MockState → outcome (option error) * MockState :=
  after_Called "UpdateOneById" [VContext ctx; VString id; VM update]
    (λ args, Arguments_Error args 0).

Definition DeleteOneById (ctx : Context) (id : string)
  : MockState → outcome (option error) * MockState :=
  after_Called "DeleteOneById" [VContext ctx; VString id]
    (λ args, Arguments_Error args 0).




(** How Go boxes an [error] into [any]: a nil error is the nil
    interface. *)
Definition of_error (err : option error) : value :=
  match err with
  | Some err => VError err
  | None => VNil
  end.

End mock_repo.
End mock_repo.

(** A scripted [mock.Mock]: [On(method, mock.Anything, ...).Return(...)]
    for the methods a test expects, the calls made so far next to it. *)
Module Scripted.
Section Scripted.
Context {DT : DriverTypes} {T : Type} {C : Codec T}.
Import mock_repo.

Record Expectation : Type := {
  on_method : string;
  to_return : list (value (T:=T));
}.

Record Script : Type := {
  ExpectedCalls : list Expectation;
  Calls : list (string * list (value (T:=T)));
}.

Definition called (method : string) (arguments : list value) (m : Script)
  : outcome Arguments * Script :=
  match List.find (λ e, String.eqb (on_method e) method) (ExpectedCalls m) with
  | Some e =>
      (Returns (to_return e),
       {| ExpectedCalls := ExpectedCalls m;
          Calls := (Calls m ++ [(method, arguments)])%list |})
  | None => (Panics, m)
  end.

#[global] Instance mock : Mock := {|
  MockState := Script;
  Mock_Called := called;
|}.

End Scripted.
End Scripted.

(** Fixtures for the recording driver and the mock. *)
Module Fixtures.
Import Mem mongobase Sample mock_repo Scripted.

(** The repository of [Sample.users] over the recording driver, with no
    call made yet. *)
Definition recorded_env (w : MemWorld) : @Env (@Logged.types Mem.types) :=
  @Build_Env (@Logged.types Mem.types)
    (@New (@Logged.types Mem.types) (@Logged.driver Mem.types Mem.driver)
       () "app" "users")
    (w, []).

(** What a test of a service might configure. *)
Definition script : Script (T:=TestEntity) := {|
  ExpectedCalls :=
    [ {| on_method := "InsertOne"; to_return := [VError ErrDuplicateKey] |};
      {| on_method := "FindOneById"; to_return := [VEntity ann; VNil] |};
      {| on_method := "FindAll"; to_return := [VSlice (Slice [ann; bob]); VNil] |};
      {| on_method := "UpdateOneById"; to_return := [VNil] |};
      {| on_method := "DeleteOneById"; to_return := [VNil] |} ];
  Calls := [];
|}.

(** A user with a nested document. *)
Definition with_address : MemWorld :=
  {| colls := {[ ("app", "users") :=
                   [ {[ "_id" := AString "u1"; "name" := AString "Ann";
                        "addr" := AM {[ "city" := AString "Oslo";
                                        "zip" := AString "0150" ]} ]} ] ]};
     next_oid := 0;
     reachable := true;
     drops_after := None |}.

(** Nothing found, the way a test writes [Return(nil, err)]. *)
Definition script_not_found : Script (T:=TestEntity) := {|
  ExpectedCalls :=
    [ {| on_method := "FindOneById";
         to_return := [VNil; VError ErrNoDocuments] |};
      {| on_method := "FindAll";
         to_return := [VNil; VError ErrContextCanceled] |} ];
  Calls := [];
|}.

End Fixtures.

(** * Properties *)

(** ** Running a method: one driver call each *)

Ltac run_method :=
  unfold mbind, mret, State_bind, State_ret, mongobase.repo, mongobase.call;
  simpl.

Section MethodEquations.
Context {DT : DriverTypes} {D : Driver} {T : Type} {C : Codec T}.
Import mongobase.
Implicit Types (s : Env) (ctx : Context) (id : string) (w : World).

Lemma InsertOne_run ctx (document : T) s r w' :
  Collection_InsertOne (collection (this s)) ctx document (world s) = (r, w') →
  InsertOne ctx document s =
    (match r with inr err => Some err | inl _ => None end,
     {| this := this s; world := w' |}).
Proof.
  intros Hr. unfold InsertOne. run_method. rewrite Hr. by destruct r.
Qed.

Lemma FindOneById_run ctx id s sr w' :
  Collection_FindOne (collection (this s)) ctx {[ "_id" := AString id ]}
    (world s) = (sr, w') →
  FindOneById (T:=T) ctx id s =
    (SingleResult_Decode sr zero, {| this := this s; world := w' |}).
Proof.
  intros Hr. unfold FindOneById. run_method. rewrite Hr.
  destruct (SingleResult_Decode sr zero) as [v [err|]]; reflexivity.
Qed.

Lemma UpdateOneById_run ctx id (update : bson_M) s r w' :
  Collection_UpdateOne (collection (this s)) ctx {[ "_id" := AString id ]}
    {[ "$set" := AM update ]} (world s) = (r, w') →
  UpdateOneById ctx id update s =
    (match r with inr err => Some err | inl _ => None end,
     {| this := this s; world := w' |}).
Proof.
  intros Hr. unfold UpdateOneById. run_method. rewrite Hr. by destruct r.
Qed.

Lemma DeleteOneById_run ctx id s r w' :
  Collection_DeleteOne (collection (this s)) ctx {[ "_id" := AString id ]}
    (world s) = (r, w') →
  DeleteOneById ctx id s =
    (match r with inr err => Some err | inl _ => None end,
     {| this := this s; world := w' |}).
Proof.
  intros Hr. unfold DeleteOneById. run_method. rewrite Hr. by destruct r.
Qed.

(** The loop consumes the whole batch or stops at the first document
    that does not decode; it never touches the cursor's final error. *)
Lemma FindAll_loop_batch (cursor : Cursor) ctx (results : slice T) :
  (FindAll_loop cursor ctx results).2 = decode_batch (cur_batch cursor) results
  ∧ cur_err (FindAll_loop cursor ctx results).1 = cur_err cursor.
Proof.
  funelim (FindAll_loop cursor ctx results);
    try clear Heqcall;
    repeat match goal with
           | E : sigmaI _ _ _ = _ |- _ => clear E
           | E : Cursor_Next _ _ = _ |- _ =>
               unfold Cursor_Next in E;
               destruct (cur_batch cursor) as [|d ds] eqn:Hbatch;
               inversion E; subst; clear E
           end; simpl.
  - (* Next returned false *)
    done.
  - (* the document does not decode *)
    unfold Cursor_Decode in Heq. simpl in Heq. by rewrite Heq.
  - (* the document decodes and the loop goes on *)
    unfold Cursor_Decode in Heq. simpl in Heq. rewrite Heq.
    match goal with IH : _ ∧ _ |- _ => exact IH end.
Qed.

Lemma FindAll_run ctx (filter : bson_M) s r w1 :
  Collection_Find (collection (this s)) ctx filter (world s) = (r, w1) →
  FindAll (T:=T) ctx filter s =
    match r with
    | inr err => ((NilSlice, Some err), {| this := this s; world := w1 |})
    | inl cursor =>
        (match decode_batch (cur_batch cursor) NilSlice with
         | inr err => (NilSlice, Some err)
         | inl results =>
             match cur_err cursor with
             | Some err => (NilSlice, Some err)
             | None => (results, None)
             end
         end,
         {| this := this s;
            world :=
              (Cursor_Close (FindAll_loop (T:=T) cursor ctx NilSlice).1 ctx w1).2 |})
    end.
Proof.
  intros Hr. unfold FindAll. run_method. rewrite Hr.
  destruct r as [cursor|err]; [|reflexivity].
  destruct (FindAll_loop_batch cursor ctx NilSlice) as [Hout Herr].
  destruct (FindAll_loop cursor ctx NilSlice) as [cursor' out].
  simpl in *. subst out. unfold Cursor_Err. rewrite Herr.
  by destruct (Cursor_Close cursor' ctx w1).
Qed.

(** A batch whose documents all decode is decoded in order, after what
    was accumulated before. *)
Lemma decode_batch_all (ds : list Raw) (results : slice T) :
  Forall decodes ds →
  ∃ results', decode_batch ds results = inl results'
    ∧ elements results' = (elements results ++ (decoded <$> ds))%list
    ∧ (ds = [] → results' = results).
Proof.
  revert results. induction ds as [|d ds IH]; intros results Hall.
  - exists results. simpl. by rewrite app_nil_r.
  - inversion Hall as [|? ? Hd Hds]; subst.
    unfold decodes in Hd. simpl.
    destruct (IH (append results (decoded d)) Hds) as (r' & Hr' & Hel & _).
    exists r'. unfold decoded in *.
    destruct (unmarshal d zero) as [item [err|]]; simpl in *; [done|].
    split_and!; [done| |done].
    by rewrite Hel, <- app_assoc.
Qed.

(** A batch with a document that does not decode yields an error. *)
Lemma decode_batch_some_fail (ds : list Raw) (results : slice T) :
  ¬ Forall decodes ds → ∃ err, decode_batch ds results = inr err.
Proof.
  revert results. induction ds as [|d ds IH]; intros results Hnot.
  - destruct Hnot. constructor.
  - simpl. destruct (unmarshal d zero) as [item [err|]] eqn:Hd; [by eexists|].
    apply IH. intros Hds. apply Hnot. constructor; [|done].
    unfold decodes. by rewrite Hd.
Qed.


End MethodEquations.

(** ** FindAll *)

Section FindAllProperties.
Context {DT : DriverTypes} {D : Driver} {T : Type} {C : Codec T}.
Import mongobase.
Implicit Types (s : Env) (ctx : Context) (filter : bson_M).

(** C1. When the query succeeds and its cursor holds no document,
    [FindAll] returns no error and the slice it declared with
    [var results []T] and never appended to: the nil slice, which is
    not the allocated empty slice [[]T{}]. *)
Theorem FindAll_no_match_is_nil ctx filter s cursor w1 :
  Collection_Find (collection (this s)) ctx filter (world s)
    = (inl cursor, w1) →
  cur_batch cursor = [] →
  cur_err cursor = None →
  (FindAll (T:=T) ctx filter s).1 = (NilSlice, None)
  ∧ (FindAll (T:=T) ctx filter s).1 ≠ (Slice [], None).
Proof.
  intros Hfind Hbatch Herr.
  rewrite (FindAll_run _ _ _ _ _ Hfind), Hbatch, Herr. simpl.
  split; [reflexivity | discriminate].
Qed.

(** C2. When the query succeeds with a cursor over N documents that
    ends without error and every document decodes, [FindAll] returns
    the N decoded entities in the order of the cursor and no error.
    When some document of the cursor does not decode, it returns an
    error and the nil slice. *)
Theorem FindAll_decodes_in_cursor_order ctx filter s cursor w1 :
  Collection_Find (collection (this s)) ctx filter (world s)
    = (inl cursor, w1) →
  (cur_err cursor = None →
   Forall (decodes (T:=T)) (cur_batch cursor) →
   ∃ results,
     (FindAll ctx filter s).1 = (results, None)
     ∧ elements results = decoded <$> cur_batch cursor
     ∧ len results = length (cur_batch cursor))
  ∧ (¬ Forall (decodes (T:=T)) (cur_batch cursor) →
     ∃ err, (FindAll (T:=T) ctx filter s).1 = (NilSlice, Some err)).
Proof.
  intros Hfind. rewrite (FindAll_run _ _ _ _ _ Hfind). split.
  - intros Herr Hall.
    destruct (decode_batch_all (cur_batch cursor) NilSlice Hall)
      as (results & Hres & Hel & _).
    exists results. rewrite Hres, Herr. simpl in *.
    split_and!; [done|done|].
    unfold len. by rewrite Hel, length_fmap.
  - intros Hnot.
    destruct (decode_batch_some_fail (cur_batch cursor) NilSlice Hnot)
      as [err Hres].
    exists err. by rewrite Hres.
Qed.

(** C9. Whatever error [FindAll] returns, the slice next to it is nil. *)
Theorem FindAll_error_returns_nil ctx filter s results err s' :
  FindAll (T:=T) ctx filter s = ((results, Some err), s') →
  results = NilSlice.
Proof.
  destruct (Collection_Find (collection (this s)) ctx filter (world s))
    as [r w1] eqn:Hfind.
  rewrite (FindAll_run _ _ _ _ _ Hfind).
  destruct r as [cursor|e]; [|by intros [= <- _ _]].
  destruct (decode_batch (cur_batch cursor) NilSlice) as [rs|e];
    [|by intros [= <- _ _]].
  destruct (cur_err cursor); by intros [= <- ?].
Qed.

End FindAllProperties.

Section FindAllWitnesses.
Import Mem mongobase Sample.

Lemma FindAll_no_match_is_nil_witness :
  (FindAll (T:=TestEntity) Live {[ "name" := AString "Zed" ]}
     (env two_users)).1 = (NilSlice, None)
  ∧ (FindAll (T:=TestEntity) Live {[ "name" := AString "Zed" ]}
       (env two_users)).1 ≠ (Slice [], None).
Proof.
  eapply (FindAll_no_match_is_nil (DT:=types) (D:=driver) (T:=TestEntity) Live
            {[ "name" := AString "Zed" ]} (env two_users)).
  - reflexivity.
  - vm_compute. reflexivity.
  - reflexivity.
Defined.

Lemma FindAll_decodes_in_cursor_order_witness :
  (∃ results,
     (FindAll (T:=TestEntity) Live ∅ (env two_users)).1 = (results, None)
     ∧ elements results = [ann; bob]
     ∧ len results = 2)
  ∧ (∃ err,
       (FindAll (T:=TestEntity) Live ∅ (env bad_age)).1
         = (NilSlice, Some err)).
Proof.
  split.
  - destruct (proj1 (FindAll_decodes_in_cursor_order (DT:=types) (D:=driver)
                       (T:=TestEntity) Live ∅ (env two_users) _ _ eq_refl))
      as (results & Hret & Hel & Hlen).
    + reflexivity.
    + vm_compute. repeat constructor.
    + exists results. split_and!; [exact Hret | exact Hel | exact Hlen].
  - apply (proj2 (FindAll_decodes_in_cursor_order (DT:=types) (D:=driver)
                    (T:=TestEntity) Live ∅ (env bad_age) _ _ eq_refl)).
    vm_compute. intros Hall.
    inversion Hall as [|? ? _ Hrest]. inversion Hrest as [|? ? Hbad _].
    discriminate Hbad.
Defined.

(** Ann decodes and was appended before the second document failed: the
    slice returned with the error is nil all the same. *)
Lemma FindAll_error_returns_nil_witness :
  (FindAll (T:=TestEntity) Live ∅ (env bad_age)).1.1 = NilSlice.
Proof.
  apply (FindAll_error_returns_nil (DT:=types) (D:=driver) (T:=TestEntity)
           Live ∅ (env bad_age) _ (ErrDecode "age")
           (FindAll (DT:=types) (T:=TestEntity) Live ∅ (env bad_age)).2).
  vm_compute. reflexivity.
Defined.

End FindAllWitnesses.

(** ** FindOneById *)

Section FindOneByIdProperties.
Context {DT : DriverTypes} {D : Driver} {T : Type} {C : Codec T}.
Import mongobase.
Implicit Types (s : Env) (ctx : Context) (id : string).

(** C3. [FindOneById] asks the driver for one document with the filter
    [{"_id": id}] and nothing else.  When the find reports an error (no
    document matched) it returns that error; when the document read does
    not decode it returns the decoding error; both come back in the one
    error result.  Only a find without error whose document decodes
    gives a nil error. *)
Theorem FindOneById_filter_and_errors ctx id s sr w' :
  Collection_FindOne (collection (this s)) ctx {[ "_id" := AString id ]}
    (world s) = (sr, w') →
  (∀ err, sr_err sr = Some err →
     ∃ v, (FindOneById (T:=T) ctx id s).1 = (v, Some err))
  ∧ (∀ err, sr_err sr = None →
       (unmarshal (sr_rdr sr) (zero : T)).2 = Some err →
       ∃ v, (FindOneById (T:=T) ctx id s).1 = (v, Some err))
  ∧ (∀ v, (FindOneById (T:=T) ctx id s).1 = (v, None) →
       sr_err sr = None ∧ unmarshal (sr_rdr sr) zero = (v, None)).
Proof.
  intros Hfind. rewrite (FindOneById_run _ _ _ _ _ Hfind).
  unfold SingleResult_Decode. simpl. split_and!.
  - intros err ->. by eexists.
  - intros err -> Hdec.
    destruct (unmarshal (sr_rdr sr) zero) as [v e]. simpl in Hdec. subst e.
    by eexists.
  - intros v. destruct (sr_err sr); [discriminate|]. by intros ->.
Qed.

(** C10. When the find itself reports the error, nothing is decoded and
    the entity returned next to the error is the zero value of [T]. *)
Theorem FindOneById_not_found_zero ctx id s sr w' err :
  Collection_FindOne (collection (this s)) ctx {[ "_id" := AString id ]}
    (world s) = (sr, w') →
  sr_err sr = Some err →
  (FindOneById (T:=T) ctx id s).1 = (zero, Some err).
Proof.
  intros Hfind Herr. rewrite (FindOneById_run _ _ _ _ _ Hfind).
  unfold SingleResult_Decode. by rewrite Herr.
Qed.

End FindOneByIdProperties.

Section FindOneByIdWitnesses.
Import Mem mongobase Sample.

(** A stored document whose [age] is a string, asked for by its id. *)
Lemma FindOneById_filter_and_errors_witness :
  (∃ v, (FindOneById (T:=TestEntity) Live "u9" (env two_users)).1
        = (v, Some ErrNoDocuments))
  ∧ (∃ v, (FindOneById (T:=TestEntity) Live "u3" (env bad_age)).1
          = (v, Some (ErrDecode "age")))
  ∧ unmarshal (TestEntity_marshal ann) zero = (ann, None).
Proof.
  split_and!.
  - apply (proj1 (FindOneById_filter_and_errors (DT:=types) (D:=driver)
                    (T:=TestEntity) Live "u9" (env two_users) _ _ eq_refl)).
    vm_compute. reflexivity.
  - apply (proj1 (proj2 (FindOneById_filter_and_errors (DT:=types)
                           (D:=driver) (T:=TestEntity) Live "u3"
                           (env bad_age) _ _ eq_refl))).
    + vm_compute. reflexivity.
    + vm_compute. reflexivity.
  - apply (proj2 (proj2 (FindOneById_filter_and_errors (DT:=types)
                           (D:=driver) (T:=TestEntity) Live "u1"
                           (env two_users) _ _ eq_refl)) ann).
    vm_compute. reflexivity.
Defined.

Lemma FindOneById_not_found_zero_witness :
  (FindOneById (T:=TestEntity) Live "u9" (env two_users)).1
    = ({| ID := EmptyString; Name := EmptyString; Age := 0 |}, Some ErrNoDocuments).
Proof.
  refine (FindOneById_not_found_zero (DT:=types) (D:=driver) (T:=TestEntity)
            Live "u9" (env two_users) _ _ ErrNoDocuments eq_refl _).
  vm_compute. reflexivity.
Defined.

End FindOneByIdWitnesses.

(** ** Errors, no-ops and the receiver *)

Section RepositoryProperties.
Context {DT : DriverTypes} {D : Driver} {T : Type} {C : Codec T}.
Import mongobase.
Implicit Types (s : Env) (ctx : Context) (id : string) (filter : bson_M).


(** C5. [UpdateOneById] and [DeleteOneById] make their one driver call
    and look at its error only: whatever result the driver acknowledges
    with, a matched or deleted count of zero included, they return nil
    and the world as that call left it. *)
Theorem no_match_is_success ctx id s :
  (∀ (update : bson_M) r w',
     Collection_UpdateOne (collection (this s)) ctx
       {[ "_id" := AString id ]} {[ "$set" := AM update ]} (world s)
       = (inl r, w') →
     MatchedCount r = 0%Z →
     UpdateOneById ctx id update s
       = (None, {| this := this s; world := w' |}))
  ∧ (∀ r w',
       Collection_DeleteOne (collection (this s)) ctx
         {[ "_id" := AString id ]} (world s) = (inl r, w') →
       DeletedCount r = 0%Z →
       DeleteOneById ctx id s = (None, {| this := this s; world := w' |})).
Proof.
  split.
  - intros update r w' Hcall _.
    by rewrite (UpdateOneById_run _ _ _ _ _ _ Hcall).
  - intros r w' Hcall _. by rewrite (DeleteOneById_run _ _ _ _ _ Hcall).
Qed.

(** Building blocks of a method keep the receiver. *)
Lemma keeps_receiver_ret {A} (a : A) : keeps_receiver (mret a).
Proof. intros s. reflexivity. Qed.

Lemma keeps_receiver_repo {A} (field : MongoBaseRepository → A) :
  keeps_receiver (repo field).
Proof. intros s. reflexivity. Qed.

Lemma keeps_receiver_call {A} (io : IO A) : keeps_receiver (call io).
Proof. intros s. unfold call. by destruct (io (world s)). Qed.

Lemma keeps_receiver_bind {A B} (m : Method A) (f : A → Method B) :
  keeps_receiver m → (∀ a, keeps_receiver (f a)) →
  keeps_receiver (m ≫= f).
Proof.
  intros Hm Hf s. unfold mbind, State_bind.
  specialize (Hm s). destruct (m s) as [a s1]. simpl in Hm.
  by rewrite Hf.
Qed.

End RepositoryProperties.

Create HintDb receiver.
#[export] Hint Resolve keeps_receiver_ret keeps_receiver_repo
  keeps_receiver_call : receiver.

Ltac solve_keeps_receiver :=
  repeat first
    [ apply keeps_receiver_bind; [|intros ?]
    | match goal with
      | |- keeps_receiver (match ?x with _ => _ end) => destruct x
      | |- keeps_receiver (let (_, _) := ?x in _) => destruct x
      end
    | solve [auto with receiver] ].

Section Stateless.
Context {DT : DriverTypes} {D : Driver} {T : Type} {C : Codec T}.
Import mongobase.

(** C8. The repository has the one field [collection]; [New] sets it to
    the handle of the named collection; and each of the five operations
    ends with the receiver it started with. *)
Theorem repository_is_stateless :
  (∀ (r : MongoBaseRepository), r = {| collection := collection r |})
  ∧ (∀ client databaseName collectionName,
       collection (New client databaseName collectionName)
       = Database_Collection (Client_Database client databaseName)
           collectionName)
  ∧ (∀ ctx (document : T), keeps_receiver (InsertOne ctx document))
  ∧ (∀ ctx id, keeps_receiver (FindOneById (T:=T) ctx id))
  ∧ (∀ ctx filter, keeps_receiver (FindAll (T:=T) ctx filter))
  ∧ (∀ ctx id update, keeps_receiver (UpdateOneById ctx id update))
  ∧ (∀ ctx id, keeps_receiver (DeleteOneById ctx id)).
Proof.
  split_and!.
  - by intros [].
  - reflexivity.
  - intros. unfold InsertOne. solve_keeps_receiver.
  - intros. unfold FindOneById. solve_keeps_receiver.
  - intros. unfold FindAll. solve_keeps_receiver.
  - intros. unfold UpdateOneById. solve_keeps_receiver.
  - intros. unfold DeleteOneById. solve_keeps_receiver.
Qed.

End Stateless.

Section RepositoryWitnesses.
Import Mem mongobase Sample.



(** No user has the id [u9]: the update and the delete are no-ops that
    succeed, and the store is as it was. *)
Lemma no_match_is_success_witness :
  UpdateOneById Live "u9" {[ "age" := AInt 31 ]} (env two_users)
    = (None, env two_users)
  ∧ DeleteOneById Live "u9" (env two_users) = (None, env two_users).
Proof.
  destruct (no_match_is_success (DT:=types) (D:=driver) Live "u9"
              (env two_users)) as [Hupdate Hdelete].
  split.
  - refine (Hupdate {[ "age" := AInt 31 ]}
              {| MatchedCount := 0; ModifiedCount := 0; UpsertedCount := 0 |}
              _ _ _); [vm_compute; reflexivity | reflexivity].
  - refine (Hdelete {| DeletedCount := 0 |} _ _ _);
      [vm_compute; reflexivity | reflexivity].
Defined.

End RepositoryWitnesses.

(** ** Connect *)

Section ConnectProperties.
Context {DT : DriverTypes} {D : Driver}.

Ltac connect_cases connectionStr w :=
  unfold mbind, mret, State_bind, State_ret; simpl;
  destruct (mongo_Connect
              (ClientOptions_ApplyURI options_Client connectionStr) w)
    as [[client|e] w1] eqn:Hconnect; simpl;
  [ destruct (Client_Ping client _ w1) as [[e|] w2] eqn:Hping; simpl | ].

(** C6. Both variants of [Connect] build the client first and ping with
    it next; they return a connection holding that client exactly when
    the construction and the ping both succeed, and otherwise the error
    of the step that failed, as the driver gave it, with the world as
    that step left it: nothing is tried again. *)
Theorem Connect_constructs_then_pings :
  (∀ ctx,
     connect_contract (mongo_client.Connect ctx) ctx
       mongo_client.Build_MongoClient)
  ∧ connect_contract mongo_go.Connect context_Background
      mongo_go.Build_MongoClient.
Proof.
  split; [intros ctx|]; intros connectionStr w opts; subst opts.
  - unfold mongo_client.Connect. connect_cases connectionStr w;
      (split_and!; intros; simpl in *; simplify_eq; try done; try congruence);
      do 2 eexists; split_and!; [done| |done]; by rewrite Hping.
  - unfold mongo_go.Connect. connect_cases connectionStr w;
      (split_and!; intros; simpl in *; simplify_eq; try done; try congruence);
      do 2 eexists; split_and!; [done| |done]; by rewrite Hping.
Qed.

End ConnectProperties.

Section ConnectWitnesses.
Import Mem Sample.

Lemma Connect_constructs_then_pings_witness :
  mongo_client.Connect Live "http://db" empty_world
    = ((None, Some ErrInvalidURI), empty_world)
  ∧ mongo_client.Connect Live "mongodb://db" down_world
    = ((None, Some ErrServerSelection), down_world)
  ∧ mongo_client.Connect Live "mongodb://db" empty_world
    = ((Some (mongo_client.Build_MongoClient ()), None), empty_world)
  ∧ mongo_go.Connect "mongodb://db" down_world
    = ((None, Some ErrServerSelection), down_world)
  ∧ mongo_go.Connect "mongodb://db" empty_world
    = ((Some (mongo_go.Build_MongoClient ()), None), empty_world).
Proof.
  destruct (Connect_constructs_then_pings (DT:=types) (D:=driver))
    as [Hctx Hbg].
  split_and!.
  - refine (proj1 (Hctx Live "http://db" empty_world) ErrInvalidURI _ _).
    vm_compute. reflexivity.
  - refine (proj1 (proj2 (Hctx Live "mongodb://db" down_world))
              () _ ErrServerSelection _ _ _);
      vm_compute; reflexivity.
  - refine (proj1 (proj2 (proj2 (Hctx Live "mongodb://db" empty_world)))
              () _ _ _ _);
      vm_compute; reflexivity.
  - refine (proj1 (proj2 (Hbg "mongodb://db" down_world))
              () _ ErrServerSelection _ _ _);
      vm_compute; reflexivity.
  - refine (proj1 (proj2 (proj2 (Hbg "mongodb://db" empty_world)))
              () _ _ _ _);
      vm_compute; reflexivity.
Defined.

End ConnectWitnesses.

(** ** UpdateOneById on the in-memory store *)

Section MemStore.
Import Mem mongobase.
Implicit Types (d : Doc) (u : bson_M) (ds : list Doc) (w : MemWorld).

Lemma matches_id (id : string) d :
  matches {[ "_id" := AString id ]} d = true
  ↔ d !! "_id" = Some (AString id).
Proof.
  unfold matches. by rewrite bool_decide_eq_true, map_Forall_singleton.
Qed.



Lemma docs_of_set_docs w c ds : docs_of (set_docs w c ds) c = ds.
Proof. unfold docs_of, set_docs. simpl. by rewrite lookup_insert_eq. Qed.






(** A dotted key is a path: ["addr.city"] sets the field [city] inside
    [addr] and leaves [zip] there; no field called ["addr.city"] is
    stored. *)
Example UpdateOneById_dotted_key :
  let after :=
    (UpdateOneById (DT:=types) Live "u1" {[ "addr.city" := AString "Rome" ]}
       (Sample.env Fixtures.with_address)).2 in
  docs_of (world after) ("app", "users")
  = [ {[ "_id" := AString "u1"; "name" := AString "Ann";
         "addr" := AM {[ "city" := AString "Rome";
                         "zip" := AString "0150" ]} ]} ].
Proof. vm_compute. reflexivity. Qed.

(** What [$set] refuses: a path through a value that is not a document,
    two keys in conflict, an empty field name. *)
Example UpdateOneById_refused_paths :
  (UpdateOneById (DT:=types) Live "u1" {[ "name.first" := AString "A" ]}
     (Sample.env Fixtures.with_address)).1 = Some ErrPathNotViable
  ∧ (UpdateOneById (DT:=types) Live "u1"
       {[ "addr" := AInt 1; "addr.city" := AString "Rome" ]}
       (Sample.env Fixtures.with_address)).1 = Some ErrBadUpdate
  ∧ (UpdateOneById (DT:=types) Live "u1" {[ "addr." := AInt 1 ]}
       (Sample.env Fixtures.with_address)).1 = Some ErrBadUpdate.
Proof. split_and!; vm_compute; reflexivity. Qed.

End MemStore.

(** ** The repository on the in-memory store *)

Section Runs.
Import Mem mongobase Sample.

Example scenario_run :
  (scenario (env empty_world)).1
  = (None, (ann, None),
     None, ({| ID := "u1"; Name := "Ann"; Age := 31 |}, None),
     None, (zero, Some ErrNoDocuments)).
Proof. vm_compute. reflexivity. Qed.

Example FindAll_two_users :
  (FindAll (T:=TestEntity) Live ∅ (env two_users)).1
  = (Slice [ann; bob], None).
Proof. vm_compute. reflexivity. Qed.

Example FindAll_by_name :
  (FindAll (T:=TestEntity) Live {[ "name" := AString "Bob" ]}
     (env two_users)).1
  = (Slice [bob], None).
Proof. vm_compute. reflexivity. Qed.

Example InsertOne_without_id :
  (InsertOne Live {| ID := EmptyString; Name := "Dee"; Age := 7 |}
     (env empty_world)).1 = None
  ∧ docs_of
      (world (InsertOne Live {| ID := EmptyString; Name := "Dee"; Age := 7 |}
                (env empty_world)).2) ("app", "users")
    = [ {[ "_id" := AInt 0; "name" := AString "Dee"; "age" := AInt 7 ]} ].
Proof. split; vm_compute; reflexivity. Qed.

End Runs.

(** ** The calls an operation makes *)

Section CallTraces.
Context {DT : DriverTypes} {D : Driver} {T : Type} {C : Codec T}.
Import mongobase Logged.

Implicit Types (s : @Env (@Logged.types DT)) (ctx : @Context DT).

(** The repository over the recording driver. *)
Local Abbreviation InsertOne' :=
  (@InsertOne (@Logged.types DT) (@Logged.driver DT D) T (lift_codec C)).
Local Abbreviation FindOneById' :=
  (@FindOneById (@Logged.types DT) (@Logged.driver DT D) T (lift_codec C)).
Local Abbreviation FindAll' :=
  (@FindAll (@Logged.types DT) (@Logged.driver DT D) T (lift_codec C)).
Local Abbreviation FindAll_loop' :=
  (@FindAll_loop (@Logged.types DT) T (lift_codec C)).
Local Abbreviation UpdateOneById' :=
  (@UpdateOneById (@Logged.types DT) (@Logged.driver DT D)).
Local Abbreviation DeleteOneById' :=
  (@DeleteOneById (@Logged.types DT) (@Logged.driver DT D)).

Lemma FindAll_loop_suffix (cursor : @Cursor (@Logged.types DT)) ctx
  (results : slice T) :
  cur_batch (FindAll_loop' cursor ctx results).1 `suffix_of` cur_batch cursor.
Proof.
  funelim (FindAll_loop' cursor ctx results);
    try clear Heqcall;
    repeat match goal with
           | E : sigmaI _ _ _ = _ |- _ => clear E
           | E : Cursor_Next _ _ = _ |- _ =>
               unfold Cursor_Next in E;
               destruct (cur_batch cursor) as [|d ds] eqn:Hbatch;
               inversion E; subst; clear E
           end; simpl.
  - by rewrite Hbatch.
  - apply suffix_cons_r. done.
  - apply suffix_cons_r.
    match goal with IH : _ `suffix_of` _ |- _ => exact IH end.
Qed.

(** X1. Over the recording driver, [InsertOne], [FindOneById],
    [UpdateOneById] and [DeleteOneById] each add exactly one call to the
    record, whatever the driver answers: the insert of the document, the
    find with the filter [{"_id": id}], the update with that filter and
    [{"$set": update}], the delete with that filter. *)
Theorem operations_are_single_calls ctx s :
  (∀ document : T,
     calls (world (InsertOne' ctx document s).2)
     = (calls (world s)
        ++ [@CallInsertOne DT (collection (this s)) ctx
              (@marshal DT T C document)])%list)
  ∧ (∀ id,
       calls (world (FindOneById' ctx id s).2)
       = (calls (world s)
          ++ [@CallFindOne DT (collection (this s)) ctx
                {[ "_id" := AString id ]}])%list)
  ∧ (∀ id (update : bson_M),
       calls (world (UpdateOneById' ctx id update s).2)
       = (calls (world s)
          ++ [@CallUpdateOne DT (collection (this s)) ctx
                {[ "_id" := AString id ]} {[ "$set" := AM update ]}])%list)
  ∧ (∀ id,
       calls (world (DeleteOneById' ctx id s).2)
       = (calls (world s)
          ++ [@CallDeleteOne DT (collection (this s)) ctx
                {[ "_id" := AString id ]}])%list).
Proof.
  destruct s as [r [w log]]. split_and!.
  - intros document. unfold InsertOne. run_method. unfold record.
    destruct (Collection_InsertOne _ _ _ w) as [[ack|err] w']; reflexivity.
  - intros id. unfold FindOneById. run_method. unfold record.
    destruct (Collection_FindOne _ _ _ w) as [sr w'].
    destruct (SingleResult_Decode _ _) as [v [err|]]; reflexivity.
  - intros id update. unfold UpdateOneById. run_method. unfold record.
    destruct (Collection_UpdateOne _ _ _ _ w) as [[ack|err] w']; reflexivity.
  - intros id. unfold DeleteOneById. run_method. unfold record.
    destruct (Collection_DeleteOne _ _ _ w) as [[ack|err] w']; reflexivity.
Qed.

Lemma FindAll_loop_exhausts (cursor : @Cursor (@Logged.types DT)) ctx
  (results : slice T) :
  ∀ built,
    (FindAll_loop' cursor ctx results).2 = inl built →
    cur_batch (FindAll_loop' cursor ctx results).1 = [].
Proof.
  funelim (FindAll_loop' cursor ctx results);
    try clear Heqcall;
    repeat match goal with
           | E : sigmaI _ _ _ = _ |- _ => clear E
           | E : Cursor_Next _ _ = _ |- _ =>
               unfold Cursor_Next in E;
               destruct (cur_batch cursor) as [|d ds] eqn:Hbatch;
               inversion E; subst; clear E
           end; simpl.
  - done.
  - intros built [=].
  - match goal with IH : ∀ _, _ → _ = [] |- _ => exact IH end.
Qed.

(** X2. Over the recording driver, [FindAll] makes the one [Find] call
    and, when that gave a cursor, exactly one [Close] call after it, on the
    successful return and on both error returns alike; the cursor it
    closes is the one the loop stopped at, and it is exhausted when
    [FindAll] returns no error.  When [Find] fails nothing is closed. *)
Theorem FindAll_closes_its_cursor ctx (filter : bson_M) s :
  (∀ err w',
     @Collection_Find DT D (collection (this s)) ctx filter (world s).1
       = (inr err, w') →
     calls (world (FindAll' ctx filter s).2)
     = (calls (world s)
        ++ [@CallFind DT (collection (this s)) ctx filter])%list)
  ∧ (∀ cursor w',
       @Collection_Find DT D (collection (this s)) ctx filter (world s).1
         = (inl cursor, w') →
       ∃ closed : @Cursor DT,
         calls (world (FindAll' ctx filter s).2)
         = (calls (world s)
            ++ [@CallFind DT (collection (this s)) ctx filter;
                @CallClose DT closed ctx])%list
         ∧ cur_batch closed `suffix_of` cur_batch cursor
         ∧ cur_err closed = cur_err cursor
         ∧ ((FindAll' ctx filter s).1.2 = None → cur_batch closed = [])).
Proof.
  destruct s as [r [w log]]. simpl. split.
  - intros err w' Hfind. unfold FindAll. run_method. unfold record.
    by rewrite Hfind.
  - intros cursor w' Hfind. unfold FindAll. run_method. unfold record.
    rewrite Hfind.
    pose proof (FindAll_loop_suffix (lift_cursor cursor) ctx NilSlice) as Hsuf.
    pose proof (FindAll_loop_exhausts (lift_cursor cursor) ctx NilSlice) as Hex.
    pose proof (@FindAll_loop_batch (@Logged.types DT) T (lift_codec C)
                  (lift_cursor cursor) ctx NilSlice) as [_ Herr].
    destruct (FindAll_loop' (lift_cursor cursor) ctx NilSlice) as [c' out].
    simpl in *.
    destruct (Cursor_Close (lower_cursor c') ctx w') as [e w2].
    exists (lower_cursor c'). simpl.
    split_and!; [by rewrite <- app_assoc|done|done|].
    destruct out as [results|err]; [|done]. intros _. by eapply Hex.
Qed.

End CallTraces.

Section ConnectTraces.
Context {DT : DriverTypes} {D : Driver}.
Import Logged.

Implicit Types (wl : @World (@Logged.types DT)) (ctx : @Context DT).

Local Abbreviation Connect' :=
  (@mongo_client.Connect (@Logged.types DT) (@Logged.driver DT D)).
Local Abbreviation Disconnect' :=
  (@mongo_client.Disconnect (@Logged.types DT) (@Logged.driver DT D)).
Local Abbreviation Connect_bg :=
  (@mongo_go.Connect (@Logged.types DT) (@Logged.driver DT D)).
Local Abbreviation Disconnect_bg :=
  (@mongo_go.Disconnect (@Logged.types DT) (@Logged.driver DT D)).

(** X3. Over the recording driver, both variants of [Connect] call the
    client construction once and then, only when it gave a client, ping
    once with that client (the caller's context in [mongo_client.go],
    [context.Background()] in [mongo.go]).  Nothing else is called: a
    client whose ping fails is not disconnected. *)
Theorem Connect_call_order (connectionStr : string) wl :
  let opts := @ClientOptions_ApplyURI DT D options_Client connectionStr in
  let ping_with ctx :=
    match (@mongo_Connect DT D opts wl.1).1 with
    | inl client => [@CallPing DT client ctx]
    | inr _ => []
    end in
  (∀ ctx,
     calls (Connect' ctx connectionStr wl).2
     = (calls wl ++ @CallConnect DT opts :: ping_with ctx)%list)
  ∧ calls (Connect_bg connectionStr wl).2
    = (calls wl ++ @CallConnect DT opts :: ping_with context_Background)%list.
Proof.
  destruct wl as [w log]. simpl. split; [intros ctx|].
  - unfold mongo_client.Connect, mbind, mret, State_bind, State_ret. simpl.
    unfold record.
    destruct (mongo_Connect _ w) as [[client|err] w1]; simpl;
      [|reflexivity].
    destruct (Client_Ping client ctx w1) as [[err|] w2];
      by rewrite <- app_assoc.
  - unfold mongo_go.Connect, mbind, mret, State_bind, State_ret. simpl.
    unfold record.
    destruct (mongo_Connect _ w) as [[client|err] w1]; simpl;
      [|reflexivity].
    destruct (Client_Ping client _ w1) as [[err|] w2];
      by rewrite <- app_assoc.
Qed.

(** X4. [Disconnect] returns what the driver's disconnect of the wrapped
    client returns, nil or the error, after that one call
    (with [context.Background()] in [mongo.go]). *)
Theorem Disconnect_is_the_drivers wl :
  (∀ mc ctx,
     (Disconnect' mc ctx wl).1
     = (@Client_Disconnect DT D (mongo_client.Client_ mc) ctx wl.1).1
     ∧ calls (Disconnect' mc ctx wl).2
       = (calls wl ++ [@CallDisconnect DT (mongo_client.Client_ mc) ctx])%list)
  ∧ (∀ mc,
       (Disconnect_bg mc wl).1
       = (@Client_Disconnect DT D (mongo_go.client mc) context_Background
            wl.1).1
       ∧ calls (Disconnect_bg mc wl).2
         = (calls wl
            ++ [@CallDisconnect DT (mongo_go.client mc)
                  context_Background])%list).
Proof.
  destruct wl as [w log]. split; intros mc; [intros ctx|].
  - unfold mongo_client.Disconnect, mbind, mret, State_bind, State_ret.
    simpl. unfold record.
    by destruct (Client_Disconnect _ ctx w) as [[err|] w'].
  - unfold mongo_go.Disconnect, mbind, mret, State_bind, State_ret.
    simpl. unfold record.
    by destruct (Client_Disconnect _ _ w) as [[err|] w'].
Qed.

(** X5. A connection that [Connect] returned is released by
    [Disconnect] with the client [Connect] built and pinged: the record
    reads construct, ping, disconnect, on one client. *)
Theorem Connect_then_Disconnect ctx ctx' (connectionStr : string) wl mc wl1 :
  Connect' ctx connectionStr wl = ((Some mc, None), wl1) →
  calls (Disconnect' mc ctx' wl1).2
  = (calls wl
     ++ [@CallConnect DT
           (@ClientOptions_ApplyURI DT D options_Client connectionStr);
         @CallPing DT (mongo_client.Client_ mc) ctx;
         @CallDisconnect DT (mongo_client.Client_ mc) ctx'])%list.
Proof.
  destruct wl as [w log].
  unfold mongo_client.Connect, mongo_client.Disconnect,
    mbind, mret, State_bind, State_ret. simpl. unfold record.
  destruct (mongo_Connect _ w) as [[client|err] w1]; simpl; [|discriminate].
  destruct (Client_Ping client ctx w1) as [[err|] w2]; [discriminate|].
  intros [= <- <-]. simpl.
  destruct (Client_Disconnect client ctx' w2) as [[err|] w3];
    by rewrite <- !app_assoc.
Qed.

End ConnectTraces.

Section TraceWitnesses.
Import Mem mongobase Sample Logged.
Import Fixtures.

Lemma FindAll_closes_its_cursor_witness :
  calls (world (@FindAll (@Logged.types Mem.types)
                  (@Logged.driver Mem.types Mem.driver) TestEntity
                  (lift_codec TestEntity_codec) Canceled ∅
                  (recorded_env two_users)).2)
  = [@CallFind Mem.types ("app", "users") Canceled ∅]
  ∧ ∃ closed : @Cursor Mem.types,
      calls (world (@FindAll (@Logged.types Mem.types)
                      (@Logged.driver Mem.types Mem.driver) TestEntity
                      (lift_codec TestEntity_codec) Live ∅
                      (recorded_env two_users)).2)
      = [@CallFind Mem.types ("app", "users") Live ∅;
         @CallClose Mem.types closed Live]
      ∧ cur_batch closed = [].
Proof.
  destruct (FindAll_closes_its_cursor (DT:=Mem.types) (D:=Mem.driver)
              (T:=TestEntity) (C:=TestEntity_codec) Canceled ∅
              (recorded_env two_users)) as [Hfail _].
  destruct (FindAll_closes_its_cursor (DT:=Mem.types) (D:=Mem.driver)
              (T:=TestEntity) (C:=TestEntity_codec) Live ∅
              (recorded_env two_users)) as [_ Hok].
  split.
  - refine (Hfail ErrContextCanceled _ _). vm_compute. reflexivity.
  - destruct (Hok _ _ eq_refl) as (closed & Hcalls & _ & _ & Hdone).
    exists closed. split; [exact Hcalls|].
    apply Hdone. vm_compute. reflexivity.
Defined.

Lemma Connect_then_Disconnect_witness :
  calls (@mongo_client.Disconnect (@Logged.types Mem.types)
           (@Logged.driver Mem.types Mem.driver)
           (@mongo_client.Build_MongoClient (@Logged.types Mem.types) ())
           Canceled
           (@mongo_client.Connect (@Logged.types Mem.types)
              (@Logged.driver Mem.types Mem.driver) Live "mongodb://db"
              (empty_world, [])).2).2
  = [@CallConnect Mem.types (Some "mongodb://db");
     @CallPing Mem.types () Live;
     @CallDisconnect Mem.types () Canceled].
Proof.
  refine (Connect_then_Disconnect (DT:=Mem.types) (D:=Mem.driver) Live Canceled
            "mongodb://db" (empty_world, [])
            (@mongo_client.Build_MongoClient (@Logged.types Mem.types) ())
            _ _).
  vm_compute. reflexivity.
Defined.

End TraceWitnesses.

(** ** More on FindAll; round trips on the in-memory store *)

Section More.
Context {DT : DriverTypes} {D : Driver} {T : Type} {C : Codec T}.
Import mongobase.
Implicit Types (s : Env) (ctx : Context) (filter : bson_M).

Lemma decode_batch_built (ds : list Raw) (results built : slice T) :
  decode_batch ds results = inl built →
  elements built = (elements results ++ (decoded <$> ds))%list
  ∧ (ds = [] → built = results)
  ∧ (ds ≠ [] → is_nil built = false).
Proof.
  revert results. induction ds as [|d ds IH]; intros results; simpl.
  - intros [= ->]. by rewrite app_nil_r.
  - unfold decoded in *.
    destruct (unmarshal d zero) as [item [err|]]; [done|]. simpl.
    intros Hrest. destruct (IH _ Hrest) as (Hel & Hnil & Hcons).
    split_and!; [|done|].
    + rewrite Hel. simpl. by rewrite <- app_assoc.
    + intros _. destruct ds as [|d' ds']; [by rewrite Hnil|by apply Hcons].
Qed.

(** X6. When [FindAll] returns no error, the slice it returns is nil
    exactly when the cursor held no document, and its length is the
    number of documents of the cursor. *)
Theorem FindAll_nil_iff_no_document ctx filter s cursor w1 results :
  Collection_Find (collection (this s)) ctx filter (world s)
    = (inl cursor, w1) →
  (FindAll (T:=T) ctx filter s).1 = (results, None) →
  (is_nil results = true ↔ cur_batch cursor = [])
  ∧ len results = length (cur_batch cursor).
Proof.
  intros Hfind. rewrite (FindAll_run _ _ _ _ _ Hfind). simpl.
  destruct (decode_batch (cur_batch cursor) NilSlice) as [built|err] eqn:Hb;
    [|done].
  destruct (cur_err cursor); [done|]. intros [= <-].
  destruct (decode_batch_built _ _ _ Hb) as (Hel & Hnil & Hcons).
  split.
  - split.
    + intros Hisnil. destruct (cur_batch cursor) as [|d ds]; [done|].
      rewrite Hcons in Hisnil; done.
    + intros Hempty. by rewrite (Hnil Hempty).
  - unfold len. rewrite Hel. simpl. by rewrite length_fmap.
Qed.

(** X7. The error of the deferred [cursor.Close] never reaches the
    caller: over a driver whose cursors fail to close, [FindAll] returns
    the slice and the error it returns over the driver underneath. *)
Theorem FindAll_ignores_Close_error ctx filter s (err : error) :
  (FindAll (D:=failing_close D err) (T:=T) ctx filter s).1
  = (FindAll (D:=D) (T:=T) ctx filter s).1.
Proof.
  unfold FindAll. run_method.
  destruct (Collection_Find (collection (this s)) ctx filter (world s))
    as [[cursor|e] w1]; [|reflexivity].
  destruct (FindAll_loop cursor ctx NilSlice) as [cursor' out]. simpl.
  by destruct (Cursor_Close cursor' ctx w1).
Qed.

End More.

Section MoreWitnesses.
Import Mem mongobase Sample.

(** Nobody is called Zed: the slice is nil.  Everybody matches the empty
    filter: the slice is allocated and has two elements. *)
Lemma FindAll_nil_iff_no_document_witness :
  is_nil (FindAll (T:=TestEntity) Live {[ "name" := AString "Zed" ]}
            (env two_users)).1.1 = true
  ∧ is_nil (FindAll (T:=TestEntity) Live ∅ (env two_users)).1.1 = false
  ∧ len (FindAll (T:=TestEntity) Live ∅ (env two_users)).1.1 = 2%nat.
Proof.
  destruct (FindAll_nil_iff_no_document (DT:=types) (D:=driver)
              (T:=TestEntity) Live {[ "name" := AString "Zed" ]}
              (env two_users) _ _
              (FindAll (DT:=types) (T:=TestEntity) Live
                 {[ "name" := AString "Zed" ]} (env two_users)).1.1
              eq_refl) as [Hnone _]; [vm_compute; reflexivity|].
  destruct (FindAll_nil_iff_no_document (DT:=types) (D:=driver)
              (T:=TestEntity) Live ∅ (env two_users) _ _
              (FindAll (DT:=types) (T:=TestEntity) Live ∅
                 (env two_users)).1.1
              eq_refl) as [Hsome Hlen]; [vm_compute; reflexivity|].
  split_and!.
  - apply Hnone. vm_compute. reflexivity.
  - apply not_true_is_false. intros Hnil.
    apply (proj1 Hsome) in Hnil. vm_compute in Hnil. discriminate Hnil.
  - rewrite Hlen. vm_compute. reflexivity.
Defined.

End MoreWitnesses.

Section MemRoundTrips.
Import Mem mongobase.
Implicit Types (d : Doc) (ds : list Doc) (w : MemWorld) (e : TestEntity).

(** What [TestEntity] is encoded to decodes to it again, with or without
    an identifier. *)
Lemma TestEntity_round_trip e :
  TestEntity_unmarshal (TestEntity_marshal e) zero = (e, None).
Proof.
  destruct e as [id name age]. unfold TestEntity_marshal. simpl.
  destruct (decide (id = EmptyString)) as [->|Hid];
    unfold TestEntity_unmarshal; by simplify_map_eq.
Qed.

Lemma find_first_app_new (p : Doc → bool) ds d :
  find_first p ds = None → p d = true → find_first p (ds ++ [d]) = Some d.
Proof.
  intros Hnone Hd. induction ds as [|x ds IH]; simpl in *; [by rewrite Hd|].
  destruct (p x); [done|]. by apply IH.
Qed.

Lemma find_first_removed (p : Doc → bool) ds :
  (List.length (List.filter p ds) ≤ 1)%nat →
  find_first p (change_first p (λ _, None) ds) = None.
Proof.
  induction ds as [|x ds IH]; simpl; [done|].
  destruct (p x) eqn:Hx; simpl.
  - intros Hlen. assert (Hrest : List.filter p ds = []).
    { destruct (List.filter p ds); [done|simpl in Hlen; lia]. }
    clear IH Hlen. induction ds as [|y ds IH]; simpl in *; [done|].
    destruct (p y); [done|]. by apply IH.
  - rewrite Hx. apply IH.
Qed.

(** X11. In the in-memory store, a [TestEntity] with a non-empty [ID]
    that [InsertOne] stored is returned, equal to what was inserted, by
    [FindOneById] on its [ID]: the field tagged [_id] is the field the
    filter of [FindOneById] names. *)
Theorem InsertOne_then_FindOneById (r : MongoBaseRepository) ctx e w s' :
  ID e ≠ EmptyString →
  InsertOne ctx e {| this := r; world := w |} = (None, s') →
  (FindOneById (T:=TestEntity) ctx (ID e) s').1 = (e, None).
Proof.
  intros Hid Hinsert.
  destruct (Collection_InsertOne (collection r) ctx e w) as [res w'] eqn:Hcall.
  rewrite (InsertOne_run (DT:=types) (D:=driver) ctx e
             {| this := r; world := w |} res w' Hcall) in Hinsert.
  destruct res as [ack|err]; [|discriminate]. injection Hinsert as <-.
  simpl in Hcall. unfold insert_one in Hcall.
  destruct ctx; [|discriminate]. simpl in Hcall.
  assert (Hkey : TestEntity_marshal e !! "_id" = Some (AString (ID e))).
  { unfold TestEntity_marshal. rewrite decide_False by done.
    apply lookup_insert_eq. }
  rewrite Hkey in Hcall.
  destruct (find_first _ (docs_of w (collection r))) eqn:Hdup;
    [discriminate|].
  injection Hcall as _ <-.
  set (w2 := set_docs w (collection r) _).
  assert (Hfind :
    Collection_FindOne (collection r) Live {[ "_id" := AString (ID e) ]} w2
    = ({| sr_err := None; sr_rdr := TestEntity_marshal e |}, w2)).
  { simpl. unfold find_one. subst w2. rewrite docs_of_set_docs.
    rewrite (find_first_app_new _ _ _ Hdup); [reflexivity|].
    by apply matches_id. }
  rewrite (FindOneById_run (DT:=types) (D:=driver) Live (ID e)
             {| this := r; world := w2 |} _ _ Hfind).
  unfold SingleResult_Decode. simpl. apply TestEntity_round_trip.
Qed.

(** X12. In the in-memory store, where at most one document has the
    identifier, after a [DeleteOneById] that returned no error
    [FindOneById] on that identifier returns the zero value and the
    no-documents error. *)
Theorem DeleteOneById_then_FindOneById {T : Type} {C : Codec T}
  (r : MongoBaseRepository) ctx (id : string) w s' :
  (List.length (List.filter (matches {[ "_id" := AString id ]})
                 (docs_of w (collection r))) ≤ 1)%nat →
  DeleteOneById ctx id {| this := r; world := w |} = (None, s') →
  (FindOneById (T:=T) ctx id s').1 = (zero, Some ErrNoDocuments).
Proof.
  intros Hunique Hdelete.
  destruct (Collection_DeleteOne (collection r) ctx
              {[ "_id" := AString id ]} w) as [res w'] eqn:Hcall.
  rewrite (DeleteOneById_run (DT:=types) (D:=driver) ctx id
             {| this := r; world := w |} res w' Hcall) in Hdelete.
  destruct res as [ack|err]; [|discriminate]. injection Hdelete as <-.
  simpl in Hcall. unfold delete_one in Hcall.
  destruct ctx; [|discriminate].
  assert (Hgone :
    find_first (matches {[ "_id" := AString id ]}) (docs_of w' (collection r))
    = None).
  { destruct (find_first _ (docs_of w (collection r))) eqn:Hfound.
    - injection Hcall as _ <-. rewrite docs_of_set_docs.
      by apply find_first_removed.
    - by injection Hcall as _ <-. }
  assert (Hfind :
    Collection_FindOne (collection r) Live {[ "_id" := AString id ]} w'
    = ({| sr_err := Some ErrNoDocuments; sr_rdr := ∅ |}, w')).
  { simpl. unfold find_one. by rewrite Hgone. }
  by rewrite (FindOneById_run (DT:=types) (D:=driver) Live id
                {| this := r; world := w' |} _ _ Hfind).
Qed.

Lemma InsertOne_then_FindOneById_witness :
  (FindOneById (T:=TestEntity) Live "u2"
     (InsertOne (DT:=types) Live Sample.bob (Sample.env Sample.empty_world)).2).1
  = (Sample.bob, None).
Proof.
  refine (InsertOne_then_FindOneById Sample.users Live Sample.bob
            Sample.empty_world _ _ _).
  - discriminate.
  - vm_compute. reflexivity.
Defined.

Lemma DeleteOneById_then_FindOneById_witness :
  (FindOneById (T:=TestEntity) Live "u1"
     (DeleteOneById (DT:=types) Live "u1" (Sample.env Sample.two_users)).2).1
  = (zero, Some ErrNoDocuments).
Proof.
  refine (DeleteOneById_then_FindOneById (T:=TestEntity) Sample.users Live "u1"
            Sample.two_users _ _ _).
  - vm_compute. lia.
  - vm_compute. reflexivity.
Defined.

End MemRoundTrips.

(** ** The mock repository *)

Section MockProperties.
Context {DT : DriverTypes} {T : Type} {C : Codec T}.
Import mock_repo.
Context {M : Mock (T:=T)}.
Implicit Types (m : MockState) (ctx : Context) (id : string)
  (err : option error) (rest : list (value (T:=T))).

Ltac run_mock H :=
  unfold InsertOne, FindOneById, FindAll, UpdateOneById, DeleteOneById,
    after_Called;
  rewrite H; simpl.

(** X8. Each method of the mock hands [Called] its own arguments in
    order and returns what the test configured: an entity or a slice
    with the error next to it, or the error alone; a nil error configured
    comes back as nil, and the mock's state is as [Called] left it. *)
Theorem mock_returns_what_was_configured ctx m m' :
  (∀ (document : T) err rest,
     Mock_Called "InsertOne" [VContext ctx; VEntity document] m
       = (Returns (of_error err :: rest), m') →
     InsertOne ctx document m = (Returns err, m'))
  ∧ (∀ id (v : T) err rest,
       Mock_Called "FindOneById" [VContext ctx; VString id] m
         = (Returns (VEntity v :: of_error err :: rest), m') →
       FindOneById ctx id m = (Returns (v, err), m'))
  ∧ (∀ (filter : bson_M) (s : slice T) err rest,
       Mock_Called "FindAll" [VContext ctx; VM filter] m
         = (Returns (VSlice s :: of_error err :: rest), m') →
       FindAll ctx filter m = (Returns (s, err), m'))
  ∧ (∀ id (update : bson_M) err rest,
       Mock_Called "UpdateOneById" [VContext ctx; VString id; VM update] m
         = (Returns (of_error err :: rest), m') →
       UpdateOneById ctx id update m = (Returns err, m'))
  ∧ (∀ id err rest,
       Mock_Called "DeleteOneById" [VContext ctx; VString id] m
         = (Returns (of_error err :: rest), m') →
       DeleteOneById ctx id m = (Returns err, m')).
Proof.
  split_and!; intros; match goal with H : Mock_Called _ _ _ = _ |- _ =>
    run_mock H end; by destruct err.
Qed.

(** X9. With [nil] configured as the first result, the mock's
    [FindOneById] returns the zero value of [T] and its [FindAll] the nil
    slice, each with the configured error, instead of panicking on the
    type assertion. *)
Theorem mock_nil_result_is_zero ctx m m' err rest :
  (∀ id,
     Mock_Called "FindOneById" [VContext ctx; VString id] m
       = (Returns (VNil :: of_error err :: rest), m') →
     FindOneById ctx id m = (Returns (zero, err), m'))
  ∧ (∀ filter : bson_M,
       Mock_Called "FindAll" [VContext ctx; VM filter] m
         = (Returns (VNil :: of_error err :: rest), m') →
       FindAll ctx filter m = (Returns (NilSlice, err), m')).
Proof.
  split; intros ? Hcalled; run_mock Hcalled; by destruct err.
Qed.

Local Set Warnings "-clear-no-such-hyp".



End MockProperties.

Section MockWitnesses.
Import Mem mock_repo Scripted Sample.
Import Fixtures.

Lemma mock_returns_what_was_configured_witness :
  (InsertOne (M:=mock) Live bob script).1 = Returns (Some ErrDuplicateKey)
  ∧ (FindOneById (M:=mock) Live "u1" script).1 = Returns (ann, None)
  ∧ (FindAll (M:=mock) Live ∅ script).1
    = Returns (Slice [ann; bob], None)
  ∧ (UpdateOneById (M:=mock) Live "u1" ∅ script).1 = Returns None
  ∧ (DeleteOneById (M:=mock) Live "u1" script).1 = Returns None.
Proof.
  split_and!.
  - refine (f_equal fst
              (proj1 (mock_returns_what_was_configured (DT:=Mem.types)
                        (T:=TestEntity) (M:=mock) Live script _)
                 bob (Some ErrDuplicateKey) [] eq_refl)).
  - refine (f_equal fst
              (proj1 (proj2 (mock_returns_what_was_configured (DT:=Mem.types)
                               (T:=TestEntity) (M:=mock) Live script _))
                 "u1" ann None [] eq_refl)).
  - refine (f_equal fst
              (proj1 (proj2 (proj2 (mock_returns_what_was_configured
                                      (DT:=Mem.types) (T:=TestEntity)
                                      (M:=mock) Live script _)))
                 ∅ (Slice [ann; bob]) None [] eq_refl)).
  - refine (f_equal fst
              (proj1 (proj2 (proj2 (proj2 (mock_returns_what_was_configured
                                             (DT:=Mem.types) (T:=TestEntity)
                                             (M:=mock) Live script _))))
                 "u1" ∅ None [] eq_refl)).
  - refine (f_equal fst
              (proj2 (proj2 (proj2 (proj2 (mock_returns_what_was_configured
                                             (DT:=Mem.types) (T:=TestEntity)
                                             (M:=mock) Live script _))))
                 "u1" None [] eq_refl)).
Defined.

(** [Return(nil, err)] for both finders. *)
Lemma mock_nil_result_is_zero_witness :
  (FindOneById (M:=mock) Live "u1" script_not_found).1
    = Returns (zero, Some ErrNoDocuments)
  ∧ (FindAll (M:=mock) Live ∅ script_not_found).1
    = Returns (NilSlice, Some ErrContextCanceled).
Proof.
  split.
  - refine (f_equal fst
              (proj1 (mock_nil_result_is_zero (DT:=Mem.types) (T:=TestEntity)
                        (M:=mock) Live script_not_found _
                        (Some ErrNoDocuments) [])
                 "u1" eq_refl)).
  - refine (f_equal fst
              (proj2 (mock_nil_result_is_zero (DT:=Mem.types) (T:=TestEntity)
                        (M:=mock) Live script_not_found _
                        (Some ErrContextCanceled) [])
                 ∅ eq_refl)).
Defined.

End MockWitnesses.
